(** * reflex-clerk: the page installers of [reflex_clerk.py]

    A shallow embedding of [install_signin_page], [install_signup_page] and
    [install_pages], and the properties of the route table [app.pages] that
    follow from the code.

    Python strings are [string]; the dictionaries [app.pages] and [**props]
    are finite maps keyed by strings; the installers mutate the application
    object and may raise, so they live in a state-and-exception monad whose
    state survives an exception. The component constructors the installers
    import are an interface; what is said about the route table holds for
    every implementation of it, what is said about the shape of a page is
    said of the implementation that records the calls. *)

From Stdlib Require Import String Ascii ZArith.
From stdpp Require Import base option list gmap strings fin_maps.

Local Open Scope string_scope.

(** ** Python values, exceptions and string primitives *)

Module Py.

(** The values that travel through keyword arguments. *)
Inductive pyval : Type :=
| PNone
| PStr (s : string)
| PInt (z : Z)
| PBool (b : bool).

(** The two exceptions the installers themselves can raise: the failed
    [assert], with its message, and the [TypeError] of a call that gets
    "multiple values for keyword argument", with the name of the callee. *)
Inductive exn : Type :=
| AssertionError (msg : string)
| TypeError (callee : string).

(** [s.startswith(p)] *)
Definition startswith (s p : string) : bool := String.prefix p s.

(** [s[i:]] for [i >= 0]: past the end the slice is empty, nothing is
    raised. *)
Fixpoint slice_from (i : nat) (s : string) : string :=
  match i, s with
  | O, _ => s
  | S i', String _ rest => slice_from i' rest
  | S _, EmptyString => EmptyString
  end.

(** A keyword dictionary, [**props]. *)
Abbreviation kwargs := (gmap string pyval).

(** Is the keyword [k] still free in [props]? *)
Definition unbound (props : kwargs) (k : string) : bool :=
  match props !! k with
  | Some _ => false
  | None => true
  end.

(** None of the names in [bound] is a key of [props]. *)
Definition clash_free (bound : list string) (props : kwargs) : bool :=
  forallb (unbound props) bound.

(** The call [callee(k1=v1, ..., **props)]: Python refuses the call with a
    [TypeError] when [props] carries a key that the call site (or a
    positional argument) already binds. *)
Definition no_multiple_values
    (callee : string) (bound : list string) (props : kwargs) : exn + unit :=
  if clash_free bound props then inr () else inl (TypeError callee).

End Py.
Import Py.

(** ** Components *)

(** The installers build their pages from five constructors they import:
    [rx.center] and [rx.vstack] from the host framework, [clerk_provider],
    [sign_in] and [sign_up] from sibling modules. Each is called the way the
    framework's components are, with positional children and keyword
    arguments, and gives a component. The route table is indifferent to what
    a component is, so the installers are embedded over any such five. *)
Class Widgets : Type := {
  Component : Type;
  clerk_provider : list Component → kwargs → Component;
  rx_center : list Component → kwargs → Component;
  rx_vstack : list Component → kwargs → Component;
  sign_in : list Component → kwargs → Component;
  sign_up : list Component → kwargs → Component
}.

(** A component recorded as the call that built it: the constructor, its
    positional children, its keyword arguments. *)
#[warnings="-register-all"] Inductive Recorded : Type :=
| Call (callee : string) (children : list Recorded) (props : kwargs).

Definition callee_of (c : Recorded) : string :=
  match c with Call f _ _ => f end.

Definition children_of (c : Recorded) : list Recorded :=
  match c with Call _ cs _ => cs end.

Definition props_of (c : Recorded) : kwargs :=
  match c with Call _ _ kw => kw end.

(** Modelled from the spec: [clerk_provider], [sign_in] and [sign_up]
    (modules [.clerk_provider], [.sign_in] and [.sign_up], not among the
    sources) and the framework's [rx.center] and [rx.vstack]. The spec has
    the provider-context wrapper, the two layout containers and the two form
    widgets keep what they are given, the subtree and the options unchanged;
    so each constructor here records its name and its arguments, which is
    also what a test that captures the arguments would see. *)
#[global] Instance recorder : Widgets := {|
  Component := Recorded;
  clerk_provider := Call "clerk_provider";
  rx_center := Call "rx.center";
  rx_vstack := Call "rx.vstack";
  sign_in := Call "sign_in";
  sign_up := Call "sign_up"
|}.

(** ** The application object and the installer monad *)

(** [rx.App] as far as the installers see it: the route table [pages], and
    every other attribute of the object, which they neither read nor write. *)
Record App {W : Widgets} : Type := mkApp {
  pages : gmap string Component;
  attrs : gmap string pyval
}.

Arguments mkApp {W} pages attrs.

(** A statement sequence run against the application: the object as the
    run leaves it, and either the exception that ended the run or a value.
    A mutation made before an exception stays made. *)
Definition Run {W : Widgets} (A : Type) : Type := App → App * (exn + A).

#[global] Instance Run_ret {W : Widgets} : MRet Run := λ A a app, (app, inr a).

#[global] Instance Run_bind {W : Widgets} : MBind Run := λ A B k c app,
  match c app with
  | (app', inl e) => (app', inl e)
  | (app', inr a) => k a app'
  end.

Section Installers.

Context {W : Widgets}.

Definition raise {A : Type} (e : exn) : Run A := λ app, (app, inl e).

(** A pure computation that may raise. *)
Definition lift {A : Type} (r : exn + A) : Run A := λ app, (app, r).

(** [assert cond, msg] *)
Definition py_assert (cond : bool) (msg : string) : Run unit :=
  if cond then mret () else raise (AssertionError msg).

(** [app.pages[key] = page] *)
Definition set_page (key : string) (page : Component) : Run unit :=
  λ app, (mkApp (<[key := page]> (pages app)) (attrs app), inr ()).

(** ** The installers *)

Definition absolute_msg : string :=
  "Expected route to be absolute (e.g. starts with '/')".

Definition signin_key (route : string) : string :=
  slice_from 1 route +:+ "/[[...signin]]/index".

Definition signup_key (route : string) : string :=
  slice_from 1 route +:+ "/[[...signup]]/index".

(** The layout both pages share is written out twice in the source, and
    twice here. *)
Definition signin_page (publishable_key : pyval) (route : string) (props : kwargs)
    : Component :=
  clerk_provider
    [ rx_center
        [ rx_vstack
            [ sign_in [] (<["path" := PStr route]> props) ]
            {[ "align" := PStr "center"; "spacing" := PStr "7" ]} ]
        {[ "height" := PStr "100vh" ]} ]
    {[ "publishable_key" := publishable_key ]}.

Definition signup_page (publishable_key : pyval) (route : string) (props : kwargs)
    : Component :=
  clerk_provider
    [ rx_center
        [ rx_vstack
            [ sign_up [] (<["path" := PStr route]> props) ]
            {[ "align" := PStr "center"; "spacing" := PStr "7" ]} ]
        {[ "height" := PStr "100vh" ]} ]
    {[ "publishable_key" := publishable_key ]}.

(** What the call of the form widget binds by keyword, and what the calls
    of the single-page installers inside [install_pages] bind ([app] by
    position). *)
Definition form_kw : list string := ["path"].
Definition installer_kw : list string := ["publishable_key"; "route"; "app"].

(** [install_signin_page(app, publishable_key=None, route="/signin", **props)] *)
Definition install_signin_page
    (publishable_key : pyval) (route : string) (props : kwargs) : Run unit :=
  py_assert (startswith route "/") absolute_msg ;;
  lift (no_multiple_values "sign_in" form_kw props) ;;
  set_page (signin_key route) (signin_page publishable_key route props).

(** [install_signup_page(app, publishable_key=None, route="/signup", **props)] *)
Definition install_signup_page
    (publishable_key : pyval) (route : string) (props : kwargs) : Run unit :=
  py_assert (startswith route "/") absolute_msg ;;
  lift (no_multiple_values "sign_up" form_kw props) ;;
  set_page (signup_key route) (signup_page publishable_key route props).

(** [install_pages(app, publishable_key=None, signin_route="/signin",
    signup_route="/signup", **props)]: each inner call passes [app]
    positionally, [publishable_key] and [route] by keyword, and [**props]. *)
Definition install_pages
    (publishable_key : pyval) (signin_route signup_route : string) (props : kwargs)
    : Run unit :=
  lift (no_multiple_values "install_signin_page" installer_kw props) ;;
  install_signin_page publishable_key signin_route props ;;
  lift (no_multiple_values "install_signup_page" installer_kw props) ;;
  install_signup_page publishable_key signup_route props.

End Installers.

(** The defaults of the signatures. *)
Definition default_key : pyval := PNone.
Definition default_signin_route : string := "/signin".
Definition default_signup_route : string := "/signup".

(** The widget four levels down a recorded page: provider, centering
    container, stack, form. *)
Definition form_of (page : Recorded) : option Recorded :=
  match page with
  | Call _ [Call _ [Call _ [form] _] _] _ => Some form
  | _ => None
  end.

(** The page under [key] is a provider-context wrapper that holds the
    credential, and the [widget] inside it holds the route as its [path] and
    every forwarded option under its own name, with nothing else added. *)
Definition forwards_unchanged
    (widget key : string) (publishable_key : pyval) (route : string)
    (props : kwargs) (app' : @App recorder) : Prop :=
  ∃ page form,
    pages app' !! key = Some page
    ∧ callee_of page = "clerk_provider"
    ∧ props_of page = {[ "publishable_key" := publishable_key ]}
    ∧ form_of page = Some form
    ∧ callee_of form = widget
    ∧ props_of form !! "path" = Some (PStr route)
    ∧ (∀ k v, props !! k = Some v → props_of form !! k = Some v)
    ∧ (∀ k, k ≠ "path" → props_of form !! k = props !! k).

(** * Properties *)

(** ** Strings *)

Lemma startswith_slash (route : string) :
  startswith route "/" = true ↔ ∃ rest, route = String "/" rest.
Proof.
  unfold startswith. destruct route as [|c rest].
  - split; [discriminate | intros [r Hr]; discriminate].
  - change (String.prefix "/" (String c rest))
      with (if ascii_dec "/" c then String.prefix "" rest else false).
    destruct (ascii_dec "/" c) as [<-|Hc].
    + split; [eauto | intros _; by destruct rest].
    + split; [discriminate | intros [r Hr]; congruence].
Qed.

Lemma signin_key_neq_signup_key (route : string) :
  signin_key route ≠ signup_key route.
Proof.
  unfold signin_key, signup_key. intros H%(inj (String.app _)). discriminate.
Qed.

(** ** The three outcomes of a single-page installer *)

Ltac run_installer :=
  unfold install_pages, install_signin_page, install_signup_page,
    py_assert, lift, raise, set_page, no_multiple_values,
    mbind, mret, Run_bind, Run_ret.

Section Outcomes.

Context {W : Widgets}.
Variables (publishable_key : pyval) (route : string) (props : kwargs) (app : App).

Lemma path_free_iff : clash_free form_kw props = true ↔ props !! "path" = None.
Proof.
  unfold clash_free, form_kw, unbound; simpl.
  destruct (props !! "path"); split; (done || discriminate).
Qed.

Lemma install_signin_page_relative :
  startswith route "/" = false →
  install_signin_page publishable_key route props app
  = (app, inl (AssertionError absolute_msg)).
Proof. intros Hr. run_installer. by rewrite Hr. Qed.

Lemma install_signup_page_relative :
  startswith route "/" = false →
  install_signup_page publishable_key route props app
  = (app, inl (AssertionError absolute_msg)).
Proof. intros Hr. run_installer. by rewrite Hr. Qed.

Lemma install_signin_page_clash :
  startswith route "/" = true → is_Some (props !! "path") →
  install_signin_page publishable_key route props app
  = (app, inl (TypeError "sign_in")).
Proof.
  intros Hr [v Hv]. run_installer. rewrite Hr.
  unfold clash_free, form_kw, unbound; simpl. by rewrite Hv.
Qed.

Lemma install_signup_page_clash :
  startswith route "/" = true → is_Some (props !! "path") →
  install_signup_page publishable_key route props app
  = (app, inl (TypeError "sign_up")).
Proof.
  intros Hr [v Hv]. run_installer. rewrite Hr.
  unfold clash_free, form_kw, unbound; simpl. by rewrite Hv.
Qed.

Lemma install_signin_page_ok :
  startswith route "/" = true → props !! "path" = None →
  install_signin_page publishable_key route props app
  = (mkApp (<[signin_key route := signin_page publishable_key route props]> (pages app))
           (attrs app), inr ()).
Proof.
  intros Hr Hp%path_free_iff. run_installer. by rewrite Hr, Hp.
Qed.

Lemma install_signup_page_ok :
  startswith route "/" = true → props !! "path" = None →
  install_signup_page publishable_key route props app
  = (mkApp (<[signup_key route := signup_page publishable_key route props]> (pages app))
           (attrs app), inr ()).
Proof.
  intros Hr Hp%path_free_iff. run_installer. by rewrite Hr, Hp.
Qed.

End Outcomes.

(** ** The combined installer is the sequence of the two *)

Lemma install_pages_seq {W : Widgets}
    (publishable_key : pyval) (signin_route signup_route : string)
    (props : kwargs) (app : App) :
  clash_free installer_kw props = true →
  install_pages publishable_key signin_route signup_route props app
  = (install_signin_page publishable_key signin_route props ;;
     install_signup_page publishable_key signup_route props) app.
Proof.
  intros Hkw. unfold install_pages, lift, no_multiple_values, mbind, Run_bind.
  rewrite Hkw.
  by destruct (install_signin_page _ _ _ app) as [app' [e|[]]].
Qed.

Lemma install_pages_clash {W : Widgets}
    (publishable_key : pyval) (signin_route signup_route : string)
    (props : kwargs) (app : App) :
  clash_free installer_kw props = false →
  install_pages publishable_key signin_route signup_route props app
  = (app, inl (TypeError "install_signin_page")).
Proof.
  intros Hkw. unfold install_pages, lift, no_multiple_values, mbind, Run_bind.
  by rewrite Hkw.
Qed.

(** ** Relative routes *)

(** C1, as stated, fails for [install_pages]: with the default sign-in route
    and the relative sign-up route ["signup"] on an empty application, the
    assertion error is raised, but only after the sign-in page has been put
    into [app.pages]. *)
Lemma install_pages_relative_signup_mutates :
  startswith "signup" "/" = false
  ∧ (install_pages default_key "/signin" "signup" ∅ (mkApp ∅ ∅)).2
    = inl (AssertionError absolute_msg)
  ∧ pages (install_pages default_key "/signin" "signup" ∅ (mkApp ∅ ∅)).1
      !! "signin/[[...signin]]/index"
    = Some (signin_page default_key "/signin" ∅)
  ∧ pages (install_pages default_key "/signin" "signup" ∅ (mkApp ∅ ∅)).1
    ≠ pages (mkApp ∅ ∅).
Proof.
  split; [reflexivity|]. split; [vm_compute; reflexivity|].
  assert (Hpage :
    pages (install_pages default_key "/signin" "signup" ∅ (mkApp ∅ ∅)).1
      !! "signin/[[...signin]]/index"
    = Some (signin_page default_key "/signin" ∅)) by (vm_compute; reflexivity).
  split; [exact Hpage|].
  intros Heq. rewrite Heq in Hpage. simpl in Hpage.
  by rewrite lookup_empty in Hpage.
Qed.

(** C1 (amended): for every route that does not start with "/", the two
    single-page installers raise the assertion error and leave the
    application as it was, whatever the other arguments. [install_pages]
    with such a route as its sign-in route leaves the application as it was,
    whatever the other arguments, and the exception is the assertion error
    when the forwarded options have none of the keys ["publishable_key"],
    ["route"] and ["app"] that the inner call binds. [install_pages] with
    such a route as its sign-up route, an absolute sign-in route and
    forwarded options that have none of these keys nor the key ["path"]
    raises the assertion error after the sign-in page has been inserted. *)
Theorem relative_route_rejected {W : Widgets}
    (publishable_key : pyval) (route other : string) (props : kwargs) (app : App) :
  startswith route "/" = false →
  install_signin_page publishable_key route props app
  = (app, inl (AssertionError absolute_msg))
  ∧ install_signup_page publishable_key route props app
    = (app, inl (AssertionError absolute_msg))
  ∧ (install_pages publishable_key route other props app).1 = app
  ∧ (clash_free installer_kw props = true →
     install_pages publishable_key route other props app
     = (app, inl (AssertionError absolute_msg)))
  ∧ (clash_free installer_kw props = true → props !! "path" = None →
     startswith other "/" = true →
     install_pages publishable_key other route props app
     = (mkApp (<[signin_key other := signin_page publishable_key other props]>
                 (pages app)) (attrs app),
        inl (AssertionError absolute_msg))).
Proof.
  intros Hrel.
  split; [by apply install_signin_page_relative|].
  split; [by apply install_signup_page_relative|].
  assert (Hin : clash_free installer_kw props = true →
    install_pages publishable_key route other props app
    = (app, inl (AssertionError absolute_msg))).
  { intros Hkw. rewrite install_pages_seq by done.
    unfold mbind, Run_bind. by rewrite install_signin_page_relative. }
  split; [|split; [exact Hin|]].
  - destruct (clash_free installer_kw props) eqn:Hkw.
    + by rewrite Hin.
    + by rewrite install_pages_clash.
  - intros Hkw Hpath Habs. rewrite install_pages_seq by done.
    unfold mbind, Run_bind. rewrite install_signin_page_ok by done.
    by rewrite install_signup_page_relative.
Qed.

Lemma relative_route_rejected_witness :
  startswith "signin" "/" = false
  ∧ install_signin_page default_key "signin" ∅ (mkApp ∅ ∅)
    = (mkApp ∅ ∅, inl (AssertionError absolute_msg))
  ∧ install_pages default_key "signin" "/signup" ∅ (mkApp ∅ ∅)
    = (mkApp ∅ ∅, inl (AssertionError absolute_msg)).
Proof.
  split; [reflexivity|].
  destruct (relative_route_rejected default_key "signin" "/signup" ∅ (mkApp ∅ ∅)
              eq_refl) as (Hin & _ & _ & Hpages & _).
  split; [exact Hin | apply Hpages; reflexivity].
Defined.

(** ** Absolute routes: the derived key *)

Lemma slice_from_1_absolute (route : string) :
  startswith route "/" = true → "/" +:+ slice_from 1 route = route.
Proof. by intros [rest ->]%startswith_slash. Qed.

(** C2: for every route [R] that starts with "/", [install_signin_page]
    returns normally and the route table it leaves is the old one with one
    entry put under [R[1:] + "/[[...signin]]/index"]; [install_signup_page]
    does the same under [R[1:] + "/[[...signup]]/index"]. [R[1:]] is [R]
    without its leading slash. The forwarded options are any that Python
    accepts in the call of the form widget, the default (none) among them. *)
Theorem installer_inserts_at_derived_key {W : Widgets}
    (publishable_key : pyval) (R : string) (props : kwargs) (app : App) :
  startswith R "/" = true → props !! "path" = None →
  "/" +:+ slice_from 1 R = R
  ∧ (∃ page app',
       install_signin_page publishable_key R props app = (app', inr ())
       ∧ pages app' = <[slice_from 1 R +:+ "/[[...signin]]/index" := page]> (pages app)
       ∧ dom (pages app')
         = {[ slice_from 1 R +:+ "/[[...signin]]/index" ]} ∪ dom (pages app))
  ∧ (∃ page app',
       install_signup_page publishable_key R props app = (app', inr ())
       ∧ pages app' = <[slice_from 1 R +:+ "/[[...signup]]/index" := page]> (pages app)
       ∧ dom (pages app')
         = {[ slice_from 1 R +:+ "/[[...signup]]/index" ]} ∪ dom (pages app)).
Proof.
  intros Habs Hpath. split; [by apply slice_from_1_absolute|]. split.
  - eexists _, _. rewrite install_signin_page_ok by done.
    split; [reflexivity|]. split; [reflexivity|]. simpl. by rewrite dom_insert_L.
  - eexists _, _. rewrite install_signup_page_ok by done.
    split; [reflexivity|]. split; [reflexivity|]. simpl. by rewrite dom_insert_L.
Qed.

Lemma installer_inserts_at_derived_key_witness :
  startswith "/auth/login" "/" = true
  ∧ (∅ : kwargs) !! "path" = None
  ∧ ∃ page app',
      install_signin_page (PStr "pk_test") "/auth/login" ∅ (mkApp ∅ ∅) = (app', inr ())
      ∧ pages app' = <[ "auth/login/[[...signin]]/index" := page ]> ∅.
Proof.
  assert (Hpath : (∅ : kwargs) !! "path" = None) by reflexivity.
  split; [reflexivity|]. split; [exact Hpath|].
  destruct (installer_inserts_at_derived_key (PStr "pk_test") "/auth/login" ∅
              (mkApp ∅ ∅) eq_refl Hpath) as (_ & (page & app' & Hrun & Hpages & _) & _).
  exists page, app'. split; [exact Hrun | exact Hpages].
Defined.

(** ** The combined installer *)

(** C3: on an application whose route table is empty, [install_pages] with
    the default routes returns normally and leaves exactly two entries,
    under ["signin/[[...signin]]/index"] and ["signup/[[...signup]]/index"]. *)
Theorem install_pages_defaults {W : Widgets}
    (publishable_key : pyval) (props : kwargs) (app : App) :
  pages app = ∅ → clash_free installer_kw props = true → props !! "path" = None →
  ∃ app',
    install_pages publishable_key default_signin_route default_signup_route props app
    = (app', inr ())
    ∧ dom (pages app')
      = {[ "signin/[[...signin]]/index"; "signup/[[...signup]]/index" ]}
    ∧ size (pages app') = 2.
Proof.
  intros Hempty Hkw Hpath. eexists. rewrite install_pages_seq by done.
  unfold mbind, Run_bind.
  rewrite install_signin_page_ok by done. rewrite install_signup_page_ok by done.
  split; [reflexivity|]. simpl. rewrite Hempty.
  change (signin_key default_signin_route) with "signin/[[...signin]]/index".
  change (signup_key default_signup_route) with "signup/[[...signup]]/index".
  split.
  - rewrite !dom_insert_L, dom_empty_L. set_solver.
  - rewrite map_size_insert_None.
    + by rewrite map_size_insert_None, map_size_empty by apply lookup_empty.
    + by rewrite lookup_insert_ne, lookup_empty.
Qed.

Lemma install_pages_defaults_witness :
  pages (mkApp ∅ ∅) = ∅
  ∧ clash_free installer_kw ∅ = true
  ∧ (∅ : kwargs) !! "path" = None
  ∧ ∃ app',
      install_pages default_key default_signin_route default_signup_route ∅ (mkApp ∅ ∅)
      = (app', inr ())
      ∧ size (pages app') = 2.
Proof.
  assert (Hpath : (∅ : kwargs) !! "path" = None) by reflexivity.
  assert (Hkw : clash_free installer_kw ∅ = true) by reflexivity.
  split; [reflexivity|]. split; [exact Hkw|]. split; [exact Hpath|].
  destruct (install_pages_defaults default_key ∅ (mkApp ∅ ∅) eq_refl Hkw Hpath)
    as (app' & Hrun & _ & Hsize).
  exists app'. split; [exact Hrun | exact Hsize].
Defined.

(** C4: [install_pages] is the sign-in installer followed by the sign-up
    installer, both with the credential and the forwarded options it was
    given; when the sign-in route is absolute and the sign-up route is not,
    it ends with the assertion error and the sign-in page stays in the route
    table. *)
Theorem install_pages_sequence_partial {W : Widgets}
    (publishable_key : pyval) (signin_route signup_route : string)
    (props : kwargs) (app : App) :
  clash_free installer_kw props = true →
  install_pages publishable_key signin_route signup_route props app
  = (install_signin_page publishable_key signin_route props ;;
     install_signup_page publishable_key signup_route props) app
  ∧ (startswith signin_route "/" = true → startswith signup_route "/" = false →
     props !! "path" = None →
     ∃ app',
       install_pages publishable_key signin_route signup_route props app
       = (app', inl (AssertionError absolute_msg))
       ∧ install_signin_page publishable_key signin_route props app = (app', inr ())
       ∧ pages app' !! signin_key signin_route
         = Some (signin_page publishable_key signin_route props)).
Proof.
  intros Hkw. split; [by apply install_pages_seq|].
  intros Hin Hup Hpath. eexists. rewrite install_pages_seq by done.
  unfold mbind, Run_bind. rewrite install_signin_page_ok by done.
  rewrite install_signup_page_relative by done.
  split; [reflexivity|]. split; [reflexivity|]. simpl. apply lookup_insert_eq.
Qed.

Lemma install_pages_sequence_partial_witness :
  clash_free installer_kw {[ "appearance" := PStr "dark" ]} = true
  ∧ startswith "/signin" "/" = true
  ∧ startswith "signup" "/" = false
  ∧ ({[ "appearance" := PStr "dark" ]} : kwargs) !! "path" = None
  ∧ ∃ app',
      install_pages (PStr "pk_test") "/signin" "signup"
        {[ "appearance" := PStr "dark" ]} (mkApp ∅ ∅)
      = (app', inl (AssertionError absolute_msg))
      ∧ pages app' !! signin_key "/signin"
        = Some (signin_page (PStr "pk_test") "/signin" {[ "appearance" := PStr "dark" ]}).
Proof.
  assert (Hkw : clash_free installer_kw {[ "appearance" := PStr "dark" ]} = true)
    by reflexivity.
  assert (Hpath : ({[ "appearance" := PStr "dark" ]} : kwargs) !! "path" = None)
    by reflexivity.
  split; [exact Hkw|]. split; [reflexivity|]. split; [reflexivity|].
  split; [exact Hpath|].
  destruct (install_pages_sequence_partial (PStr "pk_test") "/signin" "signup"
              {[ "appearance" := PStr "dark" ]} (mkApp ∅ ∅) Hkw)
    as (_ & Hpartial).
  destruct (Hpartial eq_refl eq_refl Hpath) as (app' & Hrun & _ & Hpage).
  exists app'. split; [exact Hrun | exact Hpage].
Defined.

(** ** What reaches the widgets *)

(** C5, as stated, fails for a set of forwarded options that has the key
    ["path"]: the call [sign_in(path=route, **props)] then gets two values
    for [path], a [TypeError] ends the installer, and no form is built or
    inserted. *)
Lemma path_option_not_forwarded :
  startswith "/signin" "/" = true
  ∧ install_signin_page default_key "/signin" {[ "path" := PStr "/other" ]} (mkApp ∅ ∅)
    = (mkApp ∅ ∅, inl (TypeError "sign_in"))
  ∧ ¬ forwards_unchanged "sign_in" (signin_key "/signin") default_key "/signin"
        {[ "path" := PStr "/other" ]}
        (install_signin_page default_key "/signin" {[ "path" := PStr "/other" ]}
           (mkApp ∅ ∅)).1.
Proof.
  assert (Hrun :
    install_signin_page default_key "/signin" {[ "path" := PStr "/other" ]} (mkApp ∅ ∅)
    = (mkApp ∅ ∅, inl (TypeError "sign_in"))).
  { apply install_signin_page_clash; [reflexivity|].
    exists (PStr "/other"). apply lookup_singleton_eq. }
  split; [reflexivity|]. split; [exact Hrun|].
  rewrite Hrun. intros (page & form & Hpage & _). simpl in Hpage.
  by rewrite lookup_empty in Hpage.
Qed.

(** C5 (amended): for every absolute route, credential and set of forwarded
    options that has no key ["path"], the installer returns normally, the
    form widget of the inserted page ([sign_in], respectively [sign_up])
    holds the route as its [path] and the forwarded options unchanged, and
    the provider-context wrapper holds the credential unchanged as its
    [publishable_key]. *)
Theorem options_forwarded_unchanged
    (publishable_key : pyval) (route : string) (props : kwargs)
    (app : @App recorder) :
  startswith route "/" = true → props !! "path" = None →
  ((install_signin_page publishable_key route props app).2 = inr ()
   ∧ forwards_unchanged "sign_in" (signin_key route) publishable_key route props
       (install_signin_page publishable_key route props app).1)
  ∧ ((install_signup_page publishable_key route props app).2 = inr ()
     ∧ forwards_unchanged "sign_up" (signup_key route) publishable_key route props
         (install_signup_page publishable_key route props app).1).
Proof.
  intros Habs Hpath.
  rewrite install_signin_page_ok, install_signup_page_ok by done. simpl.
  split; (split; [reflexivity|]).
  - exists (signin_page publishable_key route props),
      (sign_in [] (<["path" := PStr route]> props)).
    split; [apply lookup_insert_eq|]. do 4 (split; [reflexivity|]). simpl.
    split; [apply lookup_insert_eq|]. split.
    + intros k v Hk. rewrite lookup_insert_ne; [done | congruence].
    + intros k Hk. by rewrite lookup_insert_ne.
  - exists (signup_page publishable_key route props),
      (sign_up [] (<["path" := PStr route]> props)).
    split; [apply lookup_insert_eq|]. do 4 (split; [reflexivity|]). simpl.
    split; [apply lookup_insert_eq|]. split.
    + intros k v Hk. rewrite lookup_insert_ne; [done | congruence].
    + intros k Hk. by rewrite lookup_insert_ne.
Qed.

Lemma options_forwarded_unchanged_witness :
  startswith "/signin" "/" = true
  ∧ ({[ "appearance" := PStr "dark" ]} : kwargs) !! "path" = None
  ∧ forwards_unchanged "sign_in" (signin_key "/signin") (PStr "pk_test") "/signin"
      {[ "appearance" := PStr "dark" ]}
      (install_signin_page (PStr "pk_test") "/signin"
         {[ "appearance" := PStr "dark" ]} (mkApp ∅ ∅)).1.
Proof.
  assert (Hpath : ({[ "appearance" := PStr "dark" ]} : kwargs) !! "path" = None)
    by reflexivity.
  split; [reflexivity|]. split; [exact Hpath|].
  destruct (options_forwarded_unchanged (PStr "pk_test") "/signin"
              {[ "appearance" := PStr "dark" ]} (mkApp ∅ ∅) eq_refl Hpath)
    as ((_ & Hin) & _).
  exact Hin.
Defined.

(** ** Calling an installer again *)

(** C6: for every absolute route and application, a second call of the same
    installer with the same route returns normally, as the first did, and
    overwrites the entry of the first: after the first call the derived key
    holds the first page, after the second it holds the second page, no
    entry has been added by the second call, and the route table is the one
    the second call alone produces, the table found with the second page put
    under the derived key. The two calls may differ in credential and
    options; with the same ones the second call changes nothing. *)
Theorem reinstall_overwrites {W : Widgets}
    (key1 key2 : pyval) (route : string) (props1 props2 : kwargs) (app : App) :
  startswith route "/" = true → props1 !! "path" = None → props2 !! "path" = None →
  ((install_signin_page key1 route props1 ;; install_signin_page key2 route props2) app
   = install_signin_page key2 route props2 app
   ∧ (install_signin_page key1 route props1 app).2 = inr ()
   ∧ (install_signin_page key2 route props2
        (install_signin_page key1 route props1 app).1).2 = inr ()
   ∧ pages (install_signin_page key1 route props1 app).1 !! signin_key route
     = Some (signin_page key1 route props1)
   ∧ pages ((install_signin_page key1 route props1 ;;
             install_signin_page key2 route props2) app).1 !! signin_key route
     = Some (signin_page key2 route props2)
   ∧ pages ((install_signin_page key1 route props1 ;;
             install_signin_page key2 route props2) app).1
     = <[signin_key route := signin_page key2 route props2]> (pages app)
   ∧ size (pages ((install_signin_page key1 route props1 ;;
                   install_signin_page key2 route props2) app).1)
     = size (pages (install_signin_page key1 route props1 app).1))
  ∧ ((install_signup_page key1 route props1 ;; install_signup_page key2 route props2) app
     = install_signup_page key2 route props2 app
     ∧ (install_signup_page key1 route props1 app).2 = inr ()
     ∧ (install_signup_page key2 route props2
          (install_signup_page key1 route props1 app).1).2 = inr ()
     ∧ pages (install_signup_page key1 route props1 app).1 !! signup_key route
       = Some (signup_page key1 route props1)
     ∧ pages ((install_signup_page key1 route props1 ;;
               install_signup_page key2 route props2) app).1 !! signup_key route
       = Some (signup_page key2 route props2)
     ∧ pages ((install_signup_page key1 route props1 ;;
               install_signup_page key2 route props2) app).1
       = <[signup_key route := signup_page key2 route props2]> (pages app)
     ∧ size (pages ((install_signup_page key1 route props1 ;;
                     install_signup_page key2 route props2) app).1)
       = size (pages (install_signup_page key1 route props1 app).1)).
Proof.
  intros Habs Hp1 Hp2. unfold mbind, Run_bind. split.
  - rewrite !install_signin_page_ok by done. simpl.
    rewrite insert_insert_eq.
    do 3 (split; [reflexivity|]).
    do 2 (split; [apply lookup_insert_eq|]).
    split; [reflexivity|].
    destruct (pages app !! signin_key route) eqn:Hk.
    + by erewrite !map_size_insert_Some.
    + by rewrite !map_size_insert_None.
  - rewrite !install_signup_page_ok by done. simpl.
    rewrite insert_insert_eq.
    do 3 (split; [reflexivity|]).
    do 2 (split; [apply lookup_insert_eq|]).
    split; [reflexivity|].
    destruct (pages app !! signup_key route) eqn:Hk.
    + by erewrite !map_size_insert_Some.
    + by rewrite !map_size_insert_None.
Qed.

Lemma reinstall_overwrites_witness :
  startswith "/signin" "/" = true
  ∧ (∅ : kwargs) !! "path" = None
  ∧ (install_signin_page (PStr "pk_old") "/signin" ∅ ;;
     install_signin_page (PStr "pk_new") "/signin" ∅) (mkApp ∅ ∅)
    = install_signin_page (PStr "pk_new") "/signin" ∅ (mkApp ∅ ∅)
  ∧ pages ((install_signin_page (PStr "pk_old") "/signin" ∅ ;;
            install_signin_page (PStr "pk_new") "/signin" ∅) (mkApp ∅ ∅)).1
      !! signin_key "/signin"
    = Some (signin_page (PStr "pk_new") "/signin" ∅).
Proof.
  assert (Hpath : (∅ : kwargs) !! "path" = None) by reflexivity.
  split; [reflexivity|]. split; [exact Hpath|].
  destruct (reinstall_overwrites (PStr "pk_old") (PStr "pk_new") "/signin" ∅ ∅
              (mkApp ∅ ∅) eq_refl Hpath Hpath)
    as ((Hsame & _ & _ & _ & Hnew & _) & _).
  split; [exact Hsame | exact Hnew].
Defined.

(** ** Frame *)

(** C7: for every absolute route, a single-page installer that returns has
    done one thing to the application: the entry under its derived key is
    now its page, every entry under another key is as it was, and so is the
    rest of the application. *)
Theorem installer_frame {W : Widgets}
    (publishable_key : pyval) (route : string) (props : kwargs) (app : App) :
  startswith route "/" = true → props !! "path" = None →
  (∃ app',
     install_signin_page publishable_key route props app = (app', inr ())
     ∧ pages app' !! signin_key route = Some (signin_page publishable_key route props)
     ∧ (∀ k, k ≠ signin_key route → pages app' !! k = pages app !! k)
     ∧ attrs app' = attrs app)
  ∧ (∃ app',
       install_signup_page publishable_key route props app = (app', inr ())
       ∧ pages app' !! signup_key route = Some (signup_page publishable_key route props)
       ∧ (∀ k, k ≠ signup_key route → pages app' !! k = pages app !! k)
       ∧ attrs app' = attrs app).
Proof.
  intros Habs Hpath. split; eexists.
  - rewrite install_signin_page_ok by done. split; [reflexivity|]. simpl.
    split; [apply lookup_insert_eq|]. split; [|reflexivity].
    intros k Hk. by rewrite lookup_insert_ne.
  - rewrite install_signup_page_ok by done. split; [reflexivity|]. simpl.
    split; [apply lookup_insert_eq|]. split; [|reflexivity].
    intros k Hk. by rewrite lookup_insert_ne.
Qed.

Lemma installer_frame_witness :
  startswith "/signup" "/" = true
  ∧ (∅ : kwargs) !! "path" = None
  ∧ ∃ app',
      install_signup_page default_key "/signup" ∅
        (mkApp {[ "index" := rx_center [] ∅ ]} ∅) = (app', inr ())
      ∧ pages app' !! "index" = Some (rx_center [] ∅).
Proof.
  assert (Hpath : (∅ : kwargs) !! "path" = None) by reflexivity.
  split; [reflexivity|]. split; [exact Hpath|].
  destruct (installer_frame default_key "/signup" ∅
              (mkApp {[ "index" := rx_center [] ∅ ]} ∅) eq_refl Hpath)
    as (_ & app' & Hrun & _ & Hframe & _).
  exists app'. split; [exact Hrun|].
  rewrite (Hframe "index"); [reflexivity | discriminate].
Defined.

(** ** The sign-in page *)

(** C8: for every absolute route, the page that [install_signin_page] puts
    into the route table is the provider-context wrapper, configured with
    the credential, around one centering container of height "100vh",
    around one vertical stack with spacing "7" and center alignment, around
    one sign-in form whose [path] is the route and whose other keywords are
    the forwarded options. *)
Theorem signin_page_tree
    (publishable_key : pyval) (route : string) (props : kwargs)
    (app : @App recorder) :
  startswith route "/" = true → props !! "path" = None →
  ∃ app' page center vstack form,
    install_signin_page publishable_key route props app = (app', inr ())
    ∧ pages app' !! signin_key route = Some page
    ∧ (callee_of page = "clerk_provider"
       ∧ props_of page = {[ "publishable_key" := publishable_key ]}
       ∧ children_of page = [center])
    ∧ (callee_of center = "rx.center"
       ∧ props_of center = {[ "height" := PStr "100vh" ]}
       ∧ children_of center = [vstack])
    ∧ (callee_of vstack = "rx.vstack"
       ∧ props_of vstack !! "spacing" = Some (PStr "7")
       ∧ props_of vstack !! "align" = Some (PStr "center")
       ∧ dom (props_of vstack) = {[ "align"; "spacing" ]}
       ∧ children_of vstack = [form])
    ∧ (callee_of form = "sign_in"
       ∧ children_of form = []
       ∧ props_of form !! "path" = Some (PStr route)
       ∧ delete "path" (props_of form) = props).
Proof.
  intros Habs Hpath.
  exists (mkApp (<[signin_key route := signin_page publishable_key route props]>
                   (pages app)) (attrs app)),
    (signin_page publishable_key route props),
    (rx_center
       [ rx_vstack [ sign_in [] (<["path" := PStr route]> props) ]
           {[ "align" := PStr "center"; "spacing" := PStr "7" ]} ]
       {[ "height" := PStr "100vh" ]}),
    (rx_vstack [ sign_in [] (<["path" := PStr route]> props) ]
       {[ "align" := PStr "center"; "spacing" := PStr "7" ]}),
    (sign_in [] (<["path" := PStr route]> props)).
  split; [by apply install_signin_page_ok|].
  split; [apply lookup_insert_eq|].
  split; [done|]. split; [done|]. simpl. split.
  - split; [reflexivity|]. split; [reflexivity|]. split; [reflexivity|].
    split; [|reflexivity]. rewrite dom_insert_L, dom_singleton_L. set_solver.
  - split; [reflexivity|]. split; [reflexivity|].
    split; [apply lookup_insert_eq|].
    rewrite delete_insert_eq. by apply delete_id.
Qed.

Lemma signin_page_tree_witness :
  startswith "/signin" "/" = true
  ∧ ({[ "appearance" := PStr "dark" ]} : kwargs) !! "path" = None
  ∧ ∃ app' page,
      install_signin_page (PStr "pk_test") "/signin"
        {[ "appearance" := PStr "dark" ]} (mkApp ∅ ∅) = (app', inr ())
      ∧ pages app' !! signin_key "/signin" = Some page
      ∧ callee_of page = "clerk_provider".
Proof.
  assert (Hpath : ({[ "appearance" := PStr "dark" ]} : kwargs) !! "path" = None)
    by reflexivity.
  split; [reflexivity|]. split; [exact Hpath|].
  destruct (signin_page_tree (PStr "pk_test") "/signin"
              {[ "appearance" := PStr "dark" ]} (mkApp ∅ ∅) eq_refl Hpath)
    as (app' & page & center & vstack & form & Hrun & Hpage & (Hroot & _) & _).
  exists app', page. split; [exact Hrun|]. split; [exact Hpage | exact Hroot].
Defined.

(** ** One route for both pages *)

(** C9: for every absolute route [R], [install_pages] with [R] as sign-in
    route and as sign-up route returns normally and leaves both pages in the
    route table, under two different keys: the sign-up page does not replace
    the sign-in page. *)
Theorem same_route_two_entries {W : Widgets}
    (publishable_key : pyval) (R : string) (props : kwargs) (app : App) :
  startswith R "/" = true → clash_free installer_kw props = true →
  props !! "path" = None →
  ∃ app',
    install_pages publishable_key R R props app = (app', inr ())
    ∧ signin_key R ≠ signup_key R
    ∧ pages app' !! signin_key R = Some (signin_page publishable_key R props)
    ∧ pages app' !! signup_key R = Some (signup_page publishable_key R props)
    ∧ dom (pages app') = {[ signin_key R; signup_key R ]} ∪ dom (pages app).
Proof.
  intros Habs Hkw Hpath. eexists. rewrite install_pages_seq by done.
  unfold mbind, Run_bind.
  rewrite install_signin_page_ok by done. rewrite install_signup_page_ok by done.
  pose proof (signin_key_neq_signup_key R) as Hne.
  split; [reflexivity|]. split; [exact Hne|]. simpl.
  split; [|split].
  - rewrite lookup_insert_ne by done. apply lookup_insert_eq.
  - apply lookup_insert_eq.
  - rewrite !dom_insert_L, (assoc_L (∪)).
    by rewrite (comm_L (∪) {[signup_key R]}).
Qed.

Lemma same_route_two_entries_witness :
  startswith "/auth" "/" = true
  ∧ clash_free installer_kw ∅ = true
  ∧ (∅ : kwargs) !! "path" = None
  ∧ ∃ app',
      install_pages default_key "/auth" "/auth" ∅ (mkApp ∅ ∅) = (app', inr ())
      ∧ pages app' !! signin_key "/auth" = Some (signin_page default_key "/auth" ∅)
      ∧ pages app' !! signup_key "/auth" = Some (signup_page default_key "/auth" ∅).
Proof.
  assert (Hpath : (∅ : kwargs) !! "path" = None) by reflexivity.
  assert (Hkw : clash_free installer_kw ∅ = true) by reflexivity.
  split; [reflexivity|]. split; [exact Hkw|]. split; [exact Hpath|].
  destruct (same_route_two_entries default_key "/auth" ∅ (mkApp ∅ ∅) eq_refl Hkw Hpath)
    as (app' & Hrun & _ & Hin & Hup & _).
  exists app'. split; [exact Hrun|]. split; [exact Hin | exact Hup].
Defined.

(** * Further properties of the installers *)

(** ** Strings: the derived keys tell the routes and the pages apart *)

Lemma length_append (a s : string) :
  String.length (a +:+ s) = String.length a + String.length s.
Proof.
  induction a as [|c a IH]; [reflexivity|].
  change (String c a +:+ s) with (String c (a +:+ s)). simpl. by rewrite IH.
Qed.

Lemma append_same_length_inv (a b s t : string) :
  String.length s = String.length t → a +:+ s = b +:+ t → a = b ∧ s = t.
Proof.
  intros Hlen. revert b. induction a as [|c a IH]; intros [|d b] Heq.
  - done.
  - change ("" +:+ s) with s in Heq. subst s.
    rewrite length_append in Hlen. simpl in Hlen. lia.
  - change ("" +:+ t) with t in Heq. subst t.
    rewrite length_append in Hlen. simpl in Hlen. lia.
  - change (String c a +:+ s) with (String c (a +:+ s)) in Heq.
    change (String d b +:+ t) with (String d (b +:+ t)) in Heq.
    injection Heq as -> Heq. destruct (IH b Heq) as [-> ->]. done.
Qed.

Lemma sign_keys_apart (signin_route signup_route : string) :
  signin_key signin_route ≠ signup_key signup_route.
Proof.
  unfold signin_key, signup_key.
  intros [_ Hsuffix]%append_same_length_inv; [discriminate | reflexivity].
Qed.

Lemma slice_from_1_absolute_inj (r1 r2 : string) :
  startswith r1 "/" = true → startswith r2 "/" = true →
  slice_from 1 r1 = slice_from 1 r2 → r1 = r2.
Proof.
  intros [rest1 ->]%startswith_slash [rest2 ->]%startswith_slash. simpl.
  by intros ->.
Qed.

Lemma signin_key_absolute_inj (r1 r2 : string) :
  startswith r1 "/" = true → startswith r2 "/" = true →
  signin_key r1 = signin_key r2 → r1 = r2.
Proof.
  intros H1 H2 [Hrest _]%append_same_length_inv; [|reflexivity].
  by apply slice_from_1_absolute_inj.
Qed.

Lemma signup_key_absolute_inj (r1 r2 : string) :
  startswith r1 "/" = true → startswith r2 "/" = true →
  signup_key r1 = signup_key r2 → r1 = r2.
Proof.
  intros H1 H2 [Hrest _]%append_same_length_inv; [|reflexivity].
  by apply slice_from_1_absolute_inj.
Qed.

(** ** Every run of an installer, by cases *)

Section Cases.

Context {W : Widgets}.
Variables (publishable_key : pyval) (props : kwargs) (app : App).

Lemma install_signin_page_cases (route : string) :
  install_signin_page publishable_key route props app
  = if startswith route "/" then
      if clash_free form_kw props then
        (mkApp (<[signin_key route := signin_page publishable_key route props]>
                  (pages app)) (attrs app), inr ())
      else (app, inl (TypeError "sign_in"))
    else (app, inl (AssertionError absolute_msg)).
Proof.
  run_installer. by destruct (startswith route "/"), (clash_free form_kw props).
Qed.

Lemma install_signup_page_cases (route : string) :
  install_signup_page publishable_key route props app
  = if startswith route "/" then
      if clash_free form_kw props then
        (mkApp (<[signup_key route := signup_page publishable_key route props]>
                  (pages app)) (attrs app), inr ())
      else (app, inl (TypeError "sign_up"))
    else (app, inl (AssertionError absolute_msg)).
Proof.
  run_installer. by destruct (startswith route "/"), (clash_free form_kw props).
Qed.

Lemma install_pages_cases (signin_route signup_route : string) :
  install_pages publishable_key signin_route signup_route props app
  = if clash_free installer_kw props then
      if startswith signin_route "/" then
        if clash_free form_kw props then
          if startswith signup_route "/" then
            (mkApp (<[signup_key signup_route
                      := signup_page publishable_key signup_route props]>
                      (<[signin_key signin_route
                         := signin_page publishable_key signin_route props]>
                         (pages app))) (attrs app), inr ())
          else
            (mkApp (<[signin_key signin_route
                      := signin_page publishable_key signin_route props]>
                      (pages app)) (attrs app),
             inl (AssertionError absolute_msg))
        else (app, inl (TypeError "sign_in"))
      else (app, inl (AssertionError absolute_msg))
    else (app, inl (TypeError "install_signin_page")).
Proof.
  run_installer.
  by destruct (clash_free installer_kw props), (startswith signin_route "/"),
    (clash_free form_kw props), (startswith signup_route "/").
Qed.

End Cases.

(** ** When an installer raises *)

(** X3: a single-page installer that raises has left the application, its
    route table included, exactly as it found it: the assignment to
    [app.pages] is the last statement, after everything that can raise. *)
Theorem single_installer_failure_atomic {W : Widgets}
    (publishable_key : pyval) (route : string) (props : kwargs) (app : App)
    (e : exn) :
  ((install_signin_page publishable_key route props app).2 = inl e →
   (install_signin_page publishable_key route props app).1 = app)
  ∧ ((install_signup_page publishable_key route props app).2 = inl e →
     (install_signup_page publishable_key route props app).1 = app).
Proof.
  rewrite install_signin_page_cases, install_signup_page_cases.
  by destruct (startswith route "/"), (clash_free form_kw props).
Qed.

Lemma single_installer_failure_atomic_witness :
  (install_signup_page default_key "/signup" {[ "path" := PStr "/x" ]}
     (mkApp {[ "index" := rx_center [] ∅ ]} ∅)).2 = inl (TypeError "sign_up")
  ∧ (install_signup_page default_key "/signup" {[ "path" := PStr "/x" ]}
       (mkApp {[ "index" := rx_center [] ∅ ]} ∅)).1
    = mkApp {[ "index" := rx_center [] ∅ ]} ∅.
Proof.
  assert (Hrun :
    (install_signup_page default_key "/signup" {[ "path" := PStr "/x" ]}
       (mkApp {[ "index" := rx_center [] ∅ ]} ∅)).2 = inl (TypeError "sign_up"))
    by reflexivity.
  split; [exact Hrun|].
  destruct (single_installer_failure_atomic default_key "/signup"
              {[ "path" := PStr "/x" ]} (mkApp {[ "index" := rx_center [] ∅ ]} ∅)
              (TypeError "sign_up")) as (_ & Hup).
  exact (Hup Hrun).
Defined.

(** X4: when [install_pages] raises, the sign-up page has not been
    inserted, and the application is either exactly as it was found or
    exactly as it was found with the sign-in page put under its key: a run
    that raises leaves at most the sign-in page behind. *)
Theorem install_pages_failure {W : Widgets}
    (publishable_key : pyval) (signin_route signup_route : string)
    (props : kwargs) (app : App) (e : exn) :
  (install_pages publishable_key signin_route signup_route props app).2 = inl e →
  pages (install_pages publishable_key signin_route signup_route props app).1
    !! signup_key signup_route
  = pages app !! signup_key signup_route
  ∧ ((install_pages publishable_key signin_route signup_route props app).1 = app
     ∨ (install_pages publishable_key signin_route signup_route props app).1
       = mkApp (<[signin_key signin_route
                  := signin_page publishable_key signin_route props]>
                  (pages app)) (attrs app)).
Proof.
  rewrite install_pages_cases.
  destruct (clash_free installer_kw props), (startswith signin_route "/"),
    (clash_free form_kw props), (startswith signup_route "/"); simpl;
    intros [= <-]; try (split; [reflexivity | by left]).
  split; [|by right].
  apply lookup_insert_ne, sign_keys_apart.
Qed.

Lemma install_pages_failure_witness :
  (install_pages default_key "/signin" "signup" ∅ (mkApp ∅ ∅)).2
  = inl (AssertionError absolute_msg)
  ∧ pages (install_pages default_key "/signin" "signup" ∅ (mkApp ∅ ∅)).1
      !! signup_key "signup" = None.
Proof.
  assert (Hrun :
    (install_pages default_key "/signin" "signup" ∅ (mkApp ∅ ∅)).2
    = inl (AssertionError absolute_msg)) by reflexivity.
  split; [exact Hrun|].
  destruct (install_pages_failure default_key "/signin" "signup" ∅ (mkApp ∅ ∅)
              (AssertionError absolute_msg) Hrun) as (Hup & _).
  rewrite Hup. reflexivity.
Defined.

(** ** Several pages in one route table *)

(** X5: two different absolute routes have different sign-in keys and
    different sign-up keys; so a sign-in page installed at one route is still
    in the route table after a sign-in page has been installed at the other,
    and likewise for sign-up pages. *)
Theorem pages_at_distinct_routes_coexist {W : Widgets}
    (key1 key2 : pyval) (r1 r2 : string) (props1 props2 : kwargs) (app : App) :
  startswith r1 "/" = true → startswith r2 "/" = true → r1 ≠ r2 →
  props1 !! "path" = None → props2 !! "path" = None →
  (signin_key r1 ≠ signin_key r2
   ∧ ∃ app',
       (install_signin_page key1 r1 props1 ;; install_signin_page key2 r2 props2) app
       = (app', inr ())
       ∧ pages app' !! signin_key r1 = Some (signin_page key1 r1 props1)
       ∧ pages app' !! signin_key r2 = Some (signin_page key2 r2 props2))
  ∧ (signup_key r1 ≠ signup_key r2
     ∧ ∃ app',
         (install_signup_page key1 r1 props1 ;; install_signup_page key2 r2 props2) app
         = (app', inr ())
         ∧ pages app' !! signup_key r1 = Some (signup_page key1 r1 props1)
         ∧ pages app' !! signup_key r2 = Some (signup_page key2 r2 props2)).
Proof.
  intros Ha1 Ha2 Hne Hp1 Hp2.
  assert (Hin : signin_key r1 ≠ signin_key r2)
    by (intros Heq; by apply Hne, signin_key_absolute_inj).
  assert (Hup : signup_key r1 ≠ signup_key r2)
    by (intros Heq; by apply Hne, signup_key_absolute_inj).
  unfold mbind, Run_bind. split; (split; [done|]); eexists.
  - rewrite !install_signin_page_ok by done. split; [reflexivity|]. simpl.
    split; [|apply lookup_insert_eq].
    rewrite lookup_insert_ne by done. apply lookup_insert_eq.
  - rewrite !install_signup_page_ok by done. split; [reflexivity|]. simpl.
    split; [|apply lookup_insert_eq].
    rewrite lookup_insert_ne by done. apply lookup_insert_eq.
Qed.

Lemma pages_at_distinct_routes_coexist_witness :
  startswith "/a" "/" = true ∧ startswith "/a/" "/" = true ∧ "/a" ≠ "/a/"
  ∧ (∅ : kwargs) !! "path" = None
  ∧ signin_key "/a" ≠ signin_key "/a/".
Proof.
  assert (Hpath : (∅ : kwargs) !! "path" = None) by reflexivity.
  assert (Hne : "/a" ≠ "/a/") by discriminate.
  split; [reflexivity|]. split; [reflexivity|]. split; [exact Hne|].
  split; [exact Hpath|].
  destruct (pages_at_distinct_routes_coexist default_key default_key "/a" "/a/"
              ∅ ∅ (mkApp ∅ ∅) eq_refl eq_refl Hne Hpath Hpath) as ((Hkeys & _) & _).
  exact Hkeys.
Defined.

(** X6: whatever the two absolute routes, equal or not, [install_pages]
    leaves both pages in the route table under two different keys: the
    domain of the table grows by exactly these two keys, and by two entries
    when neither key was in use. *)
Theorem install_pages_two_entries {W : Widgets}
    (publishable_key : pyval) (signin_route signup_route : string)
    (props : kwargs) (app : App) :
  startswith signin_route "/" = true → startswith signup_route "/" = true →
  clash_free installer_kw props = true → props !! "path" = None →
  ∃ app',
    install_pages publishable_key signin_route signup_route props app = (app', inr ())
    ∧ signin_key signin_route ≠ signup_key signup_route
    ∧ pages app' !! signin_key signin_route
      = Some (signin_page publishable_key signin_route props)
    ∧ pages app' !! signup_key signup_route
      = Some (signup_page publishable_key signup_route props)
    ∧ dom (pages app')
      = {[ signin_key signin_route; signup_key signup_route ]} ∪ dom (pages app)
    ∧ (pages app !! signin_key signin_route = None →
       pages app !! signup_key signup_route = None →
       size (pages app') = S (S (size (pages app)))).
Proof.
  intros Hin Hup Hkw Hpath%path_free_iff. eexists.
  rewrite install_pages_cases, Hkw, Hin, Hpath, Hup.
  pose proof (sign_keys_apart signin_route signup_route) as Hne.
  split; [reflexivity|]. split; [exact Hne|]. simpl.
  split; [|split; [|split]].
  - rewrite lookup_insert_ne by done. apply lookup_insert_eq.
  - apply lookup_insert_eq.
  - rewrite !dom_insert_L, (assoc_L (∪)).
    by rewrite (comm_L (∪) {[signup_key signup_route]}).
  - intros Hfree_in Hfree_up. rewrite map_size_insert_None.
    + by rewrite map_size_insert_None.
    + by rewrite lookup_insert_ne.
Qed.

Lemma install_pages_two_entries_witness :
  startswith "/auth/in" "/" = true ∧ startswith "/auth/up" "/" = true
  ∧ clash_free installer_kw ∅ = true ∧ (∅ : kwargs) !! "path" = None
  ∧ ∃ app',
      install_pages default_key "/auth/in" "/auth/up" ∅ (mkApp ∅ ∅) = (app', inr ())
      ∧ size (pages app') = 2.
Proof.
  assert (Hpath : (∅ : kwargs) !! "path" = None) by reflexivity.
  assert (Hkw : clash_free installer_kw ∅ = true) by reflexivity.
  split; [reflexivity|]. split; [reflexivity|]. split; [exact Hkw|].
  split; [exact Hpath|].
  destruct (install_pages_two_entries default_key "/auth/in" "/auth/up" ∅
              (mkApp ∅ ∅) eq_refl eq_refl Hkw Hpath)
    as (app' & Hrun & _ & _ & _ & _ & Hsize).
  exists app'. split; [exact Hrun|].
  rewrite Hsize; [reflexivity | apply lookup_empty | apply lookup_empty].
Defined.

(** ** Order and repetition *)

(** X7: the two single-page installers commute: with absolute routes and
    options each call accepts, installing the sign-in page and then the
    sign-up page leaves the application exactly as the other order does,
    whatever the routes, credentials and options of the two calls. *)
Theorem single_installers_commute {W : Widgets}
    (key_in key_up : pyval) (signin_route signup_route : string)
    (props_in props_up : kwargs) (app : App) :
  startswith signin_route "/" = true → startswith signup_route "/" = true →
  props_in !! "path" = None → props_up !! "path" = None →
  (install_signin_page key_in signin_route props_in ;;
   install_signup_page key_up signup_route props_up) app
  = (install_signup_page key_up signup_route props_up ;;
     install_signin_page key_in signin_route props_in) app.
Proof.
  intros Hin Hup Hp_in Hp_up. unfold mbind, Run_bind.
  rewrite (install_signin_page_ok _ _ _ app) by done.
  rewrite (install_signup_page_ok _ _ _ app) by done.
  rewrite install_signin_page_ok, install_signup_page_ok by done. simpl.
  f_equal. f_equal. apply insert_insert_ne, not_eq_sym, sign_keys_apart.
Qed.

Lemma single_installers_commute_witness :
  startswith "/signin" "/" = true ∧ startswith "/signup" "/" = true
  ∧ (∅ : kwargs) !! "path" = None
  ∧ (install_signin_page default_key "/signin" ∅ ;;
     install_signup_page default_key "/signup" ∅) (mkApp ∅ ∅)
    = (install_signup_page default_key "/signup" ∅ ;;
       install_signin_page default_key "/signin" ∅) (mkApp ∅ ∅).
Proof.
  assert (Hpath : (∅ : kwargs) !! "path" = None) by reflexivity.
  split; [reflexivity|]. split; [reflexivity|]. split; [exact Hpath|].
  exact (single_installers_commute default_key default_key "/signin" "/signup"
           ∅ ∅ (mkApp ∅ ∅) eq_refl eq_refl Hpath Hpath).
Defined.

(** X8: [install_pages] is idempotent on every input: run a second time
    with the same arguments it leaves the application and the outcome as the
    first run left them, a run that raised included (the second is then not
    reached). *)
Theorem install_pages_idempotent {W : Widgets}
    (publishable_key : pyval) (signin_route signup_route : string)
    (props : kwargs) (app : App) :
  (install_pages publishable_key signin_route signup_route props ;;
   install_pages publishable_key signin_route signup_route props) app
  = install_pages publishable_key signin_route signup_route props app.
Proof.
  unfold mbind, Run_bind.
  rewrite (install_pages_cases _ _ app).
  destruct (clash_free installer_kw props) eqn:Hkw,
    (startswith signin_route "/") eqn:Hin,
    (clash_free form_kw props) eqn:Hpath,
    (startswith signup_route "/") eqn:Hup; try reflexivity.
  rewrite install_pages_cases, Hkw, Hin, Hpath, Hup. simpl.
  f_equal. f_equal.
  rewrite (insert_insert_ne _ (signin_key signin_route) (signup_key signup_route))
    by apply sign_keys_apart.
  by rewrite !insert_insert_eq.
Qed.

(** ** What no run of an installer does *)

(** X9: no installer ever removes a route or touches another attribute of
    the application, whether it returns or raises: every key of the route
    table it found is still a key afterwards, a single-page installer adds
    at most one entry and [install_pages] at most two. *)
Theorem installers_never_remove {W : Widgets}
    (publishable_key : pyval) (signin_route signup_route : string)
    (props : kwargs) (app : App) :
  (dom (pages app)
     ⊆ dom (pages (install_signin_page publishable_key signin_route props app).1)
   ∧ (size (pages (install_signin_page publishable_key signin_route props app).1)
      ≤ S (size (pages app)))%nat
   ∧ attrs (install_signin_page publishable_key signin_route props app).1
     = attrs app)
  ∧ (dom (pages app)
       ⊆ dom (pages (install_signup_page publishable_key signup_route props app).1)
     ∧ (size (pages (install_signup_page publishable_key signup_route props app).1)
        ≤ S (size (pages app)))%nat
     ∧ attrs (install_signup_page publishable_key signup_route props app).1
       = attrs app)
  ∧ (dom (pages app)
       ⊆ dom (pages (install_pages publishable_key signin_route signup_route
                       props app).1)
     ∧ (size (pages (install_pages publishable_key signin_route signup_route
                       props app).1)
        ≤ S (S (size (pages app))))%nat
     ∧ attrs (install_pages publishable_key signin_route signup_route props app).1
       = attrs app).
Proof.
  assert (Hgrow : ∀ (m : gmap string Component) k page,
    dom m ⊆ dom (<[k := page]> m) ∧ (size (<[k := page]> m) ≤ S (size m))%nat).
  { intros m k page. split; [apply dom_insert_subseteq|].
    destruct (m !! k) eqn:Hk.
    - erewrite map_size_insert_Some by done. lia.
    - by rewrite map_size_insert_None. }
  rewrite install_signin_page_cases, install_signup_page_cases, install_pages_cases.
  destruct (clash_free installer_kw props), (startswith signin_route "/"),
    (clash_free form_kw props), (startswith signup_route "/"); simpl;
    repeat split; try done; try lia; try apply Hgrow.
  - etrans; apply Hgrow.
  - etrans; [apply Hgrow|]. apply le_n_S, Hgrow.
  - etrans; [apply Hgrow|]. lia.
Qed.

(** X10: whatever [install_pages] does, returning or raising, every entry
    of the route table under a key other than the two derived keys is as it
    was. *)
Theorem install_pages_frame {W : Widgets}
    (publishable_key : pyval) (signin_route signup_route : string)
    (props : kwargs) (app : App) (k : string) :
  k ≠ signin_key signin_route → k ≠ signup_key signup_route →
  pages (install_pages publishable_key signin_route signup_route props app).1 !! k
  = pages app !! k.
Proof.
  intros Hin Hup. rewrite install_pages_cases.
  destruct (clash_free installer_kw props), (startswith signin_route "/"),
    (clash_free form_kw props), (startswith signup_route "/"); simpl;
    try reflexivity.
  - by rewrite !lookup_insert_ne.
  - by rewrite lookup_insert_ne.
Qed.

Lemma install_pages_frame_witness :
  "index" ≠ signin_key "/signin" ∧ "index" ≠ signup_key "/signup"
  ∧ pages (install_pages default_key "/signin" "/signup" ∅
             (mkApp {[ "index" := rx_center [] ∅ ]} ∅)).1 !! "index"
    = Some (rx_center [] ∅).
Proof.
  assert (Hin : "index" ≠ signin_key "/signin") by discriminate.
  assert (Hup : "index" ≠ signup_key "/signup") by discriminate.
  split; [exact Hin|]. split; [exact Hup|].
  rewrite (install_pages_frame default_key "/signin" "/signup" ∅
             (mkApp {[ "index" := rx_center [] ∅ ]} ∅) "index" Hin Hup).
  reflexivity.
Defined.

(** X11: a single-page installer that returns has replaced an entry when
    its derived key was already in the route table, which then keeps its
    size, and has added one entry otherwise. *)
Theorem single_installer_size {W : Widgets}
    (publishable_key : pyval) (route : string) (props : kwargs) (app : App) :
  startswith route "/" = true → props !! "path" = None →
  size (pages (install_signin_page publishable_key route props app).1)
  = match pages app !! signin_key route with
    | Some _ => size (pages app)
    | None => S (size (pages app))
    end
  ∧ size (pages (install_signup_page publishable_key route props app).1)
    = match pages app !! signup_key route with
      | Some _ => size (pages app)
      | None => S (size (pages app))
      end.
Proof.
  intros Habs Hpath.
  rewrite install_signin_page_ok, install_signup_page_ok by done. simpl. split.
  - destruct (pages app !! signin_key route) eqn:Hk.
    + by erewrite map_size_insert_Some.
    + by rewrite map_size_insert_None.
  - destruct (pages app !! signup_key route) eqn:Hk.
    + by erewrite map_size_insert_Some.
    + by rewrite map_size_insert_None.
Qed.

Lemma single_installer_size_witness :
  startswith "/signin" "/" = true ∧ (∅ : kwargs) !! "path" = None
  ∧ size (pages (install_signin_page default_key "/signin" ∅
                   (mkApp {[ signin_key "/signin" := rx_center [] ∅ ]} ∅)).1)
    = 1.
Proof.
  assert (Hpath : (∅ : kwargs) !! "path" = None) by reflexivity.
  split; [reflexivity|]. split; [exact Hpath|].
  destruct (single_installer_size default_key "/signin" ∅
              (mkApp {[ signin_key "/signin" := rx_center [] ∅ ]} ∅) eq_refl Hpath)
    as (Hsize & _).
  rewrite Hsize. reflexivity.
Defined.
